(** * APIRequestBuilder: a fluent builder of axios requests

    Shallow embedding of [src/APIBuilder.ts].  The class keeps seven private
    fields and the constructor's parameter property [token]; every
    configuration method assigns one or two fields of [this] and returns
    [this]; [execute] checks [baseUrl], then awaits one call of [axios].

    - A builder is a record; a configuration method is a function from the
      state of [this] before the call to its state after the call, so a
      fluent chain [b.post(d).get()] reads [get (post d b)].
    - [Record<string, _>] objects are finite maps with string keys ([gmap]).
    - Values of type [any] and [number] are never inspected by the class:
      they are the carriers of a [JsRuntime], with the two values the class
      itself makes, [undefined] and [new Error(message)].
    - [execute] is an [async] function: its body is a small tree, [Async],
      that is either finished or suspended on one awaited call of [axios];
      [run] plays it against a transport that is a state transformer over an
      arbitrary [World], and records every descriptor it is handed. *)

From Stdlib Require Import String List.
From stdpp Require Import base option gmap strings.


(** ** Values of the host language *)

Class JsRuntime : Type := {
  any : Type;
  number : Type;
  undefined : any;
  new_Error : string -> any
}.

(** [ToBoolean] on a string: only the empty string is falsy. *)
Definition ToBoolean (s : string) : bool :=
  match s with
  | EmptyString => false
  | String _ _ => true
  end.

(** [ToBoolean] on a [string | undefined]. *)
Definition ToBoolean_opt (o : option string) : bool :=
  match o with
  | None => false
  | Some s => ToBoolean s
  end.

(** [ToString] on a [string | undefined], as a template literal applies it. *)
Definition ToString_opt (o : option string) : string :=
  match o with
  | None => "undefined"
  | Some s => s
  end.

(** The type of the field [responseType]. *)
Inductive ResponseType : Type :=
  | arraybuffer
  | blob
  | document
  | json
  | text
  | stream.

(** ** The descriptor handed to axios *)

Module AxiosRequestConfig.
Record t `{JsRuntime} : Type := mk {
  method : string;
  url : string;
  data : any;
  headers : gmap string string;
  params : gmap string (string + number);
  responseType : ResponseType
}.

Arguments mk {_} method url data headers params responseType.
End AxiosRequestConfig.

Section Builder.
Context `{JsRuntime}.

(** ** The state of one instance *)

Record APIRequestBuilder : Type := mkBuilder {
  method : string;
  baseUrl : string;
  resource : string;
  headers : gmap string string;
  data : any;
  queryParams : gmap string (string + number);
  responseType : ResponseType;
  token : option string
}.

(** [this.headers.Authorization = v] *)
Definition assign_Authorization (v : string) (this : APIRequestBuilder)
  : APIRequestBuilder :=
  {| method := method this; baseUrl := baseUrl this;
     resource := resource this;
     headers := <["Authorization" := v]> (headers this);
     data := data this; queryParams := queryParams this;
     responseType := responseType this; token := token this |}.

(** [this.method = m] *)
Definition assign_method (m : string) (this : APIRequestBuilder)
  : APIRequestBuilder :=
  {| method := m; baseUrl := baseUrl this; resource := resource this;
     headers := headers this; data := data this;
     queryParams := queryParams this;
     responseType := responseType this; token := token this |}.

(** [this.data = d] *)
Definition assign_data (d : any) (this : APIRequestBuilder)
  : APIRequestBuilder :=
  {| method := method this; baseUrl := baseUrl this;
     resource := resource this; headers := headers this; data := d;
     queryParams := queryParams this;
     responseType := responseType this; token := token this |}.

(** The field initialisers, then the constructor's body. *)
Definition constructor (baseUrl0 : string) (token0 : option string)
  : APIRequestBuilder :=
  let this :=
    {| method := "GET"; baseUrl := baseUrl0; resource := "";
       headers := ∅; data := undefined; queryParams := ∅;
       responseType := json; token := token0 |} in
  if ToBoolean_opt (token this)
  then assign_Authorization ("Bearer " +:+ ToString_opt token0) this
  else this.

(** ** Request methods *)

Definition get (this : APIRequestBuilder) : APIRequestBuilder :=
  assign_method "GET" this.

Definition post (d : any) (this : APIRequestBuilder) : APIRequestBuilder :=
  assign_data d (assign_method "POST" this).

Definition put (d : any) (this : APIRequestBuilder) : APIRequestBuilder :=
  assign_data d (assign_method "PUT" this).

Definition delete (this : APIRequestBuilder) : APIRequestBuilder :=
  assign_method "DELETE" this.

Definition patch (d : any) (this : APIRequestBuilder) : APIRequestBuilder :=
  assign_data d (assign_method "PATCH" this).

(** ** Configuration methods *)

Definition setBaseUrl (url : string) (this : APIRequestBuilder)
  : APIRequestBuilder :=
  {| method := method this; baseUrl := url; resource := resource this;
     headers := headers this; data := data this;
     queryParams := queryParams this;
     responseType := responseType this; token := token this |}.

Definition setRelativePath (resourcePath : string) (this : APIRequestBuilder)
  : APIRequestBuilder :=
  {| method := method this; baseUrl := baseUrl this;
     resource := resourcePath; headers := headers this; data := data this;
     queryParams := queryParams this;
     responseType := responseType this; token := token this |}.

Definition setQueryParameters (params : gmap string (string + number))
    (this : APIRequestBuilder) : APIRequestBuilder :=
  {| method := method this; baseUrl := baseUrl this;
     resource := resource this; headers := headers this;
     data := data this; queryParams := params;
     responseType := responseType this; token := token this |}.

(** Only the header is assigned: the field [token] keeps the value the
    constructor gave it. *)
Definition setToken (token0 : string) (this : APIRequestBuilder)
  : APIRequestBuilder :=
  assign_Authorization ("Bearer " +:+ token0) this.

Definition setResponseType (type : ResponseType) (this : APIRequestBuilder)
  : APIRequestBuilder :=
  {| method := method this; baseUrl := baseUrl this;
     resource := resource this; headers := headers this;
     data := data this; queryParams := queryParams this;
     responseType := type; token := token this |}.

(** ** Fluent chains *)

(** One call of a request or configuration method, with its argument. *)
Inductive Call : Type :=
  | Get
  | Post (d : any)
  | Put (d : any)
  | Delete
  | Patch (d : any)
  | SetBaseUrl (url : string)
  | SetRelativePath (resourcePath : string)
  | SetQueryParameters (params : gmap string (string + number))
  | SetToken (token0 : string)
  | SetResponseType (type : ResponseType).

(** The name of the method called. *)
Definition name (c : Call) : string :=
  match c with
  | Get => "get"
  | Post _ => "post"
  | Put _ => "put"
  | Delete => "delete"
  | Patch _ => "patch"
  | SetBaseUrl _ => "setBaseUrl"
  | SetRelativePath _ => "setRelativePath"
  | SetQueryParameters _ => "setQueryParameters"
  | SetToken _ => "setToken"
  | SetResponseType _ => "setResponseType"
  end.

Definition call (c : Call) (this : APIRequestBuilder) : APIRequestBuilder :=
  match c with
  | Get => get this
  | Post d => post d this
  | Put d => put d this
  | Delete => delete this
  | Patch d => patch d this
  | SetBaseUrl url => setBaseUrl url this
  | SetRelativePath resourcePath => setRelativePath resourcePath this
  | SetQueryParameters params => setQueryParameters params this
  | SetToken token0 => setToken token0 this
  | SetResponseType type => setResponseType type this
  end.

(** [this.c1(..).c2(..) ... .cn(..)]: the calls of a chain, first to last. *)
Definition chain (cs : list Call) (this : APIRequestBuilder)
  : APIRequestBuilder :=
  fold_left (fun b c => call c b) cs this.

(** ** Execution *)

(** How a statement completes: normally, or by [throw e]. *)
Inductive Completion (A : Type) : Type :=
  | Normal (a : A)
  | Throw (e : any).

Arguments Normal {A} a.
Arguments Throw {A} e.

(** What a promise settles to. *)
Inductive Settled : Type :=
  | Fulfilled (value : any)
  | Rejected (reason : any).

(** The body of an [async] method of the builder.  [Done s this]: the body
    has ended, the method's promise settles to [s], and [this] is the state
    the body leaves the instance in.  [Await request k]: the body has
    called [axios(request)] and is suspended on the promise it got; it
    resumes as [k] of what that promise settles to. *)
Inductive Async : Type :=
  | Done (s : Settled) (this : APIRequestBuilder)
  | Await (request : AxiosRequestConfig.t) (k : Settled -> Async).

(** The private check; it assigns no field. *)
Definition validateRequestComponents (this : APIRequestBuilder)
  : Completion unit * APIRequestBuilder :=
  if negb (ToBoolean (baseUrl this))
  then (Throw
          (new_Error "Base URL is missing. Use setBaseUrl() to set it."),
        this)
  else (Normal tt, this).

(** The object literal of [execute]. *)
Definition requestConfig (this : APIRequestBuilder) : AxiosRequestConfig.t :=
  {| AxiosRequestConfig.method := method this;
     AxiosRequestConfig.url := baseUrl this +:+ resource this;
     AxiosRequestConfig.data := data this;
     AxiosRequestConfig.headers := headers this;
     AxiosRequestConfig.params := queryParams this;
     AxiosRequestConfig.responseType := responseType this |}.

(** [try { return await p; } catch (error) { throw error; }], once the
    promise [p] of [axios] has settled: the value of [p] fulfils the promise
    of [execute], the reason of [p] is caught and thrown again. *)
Definition settle_as (this : APIRequestBuilder) (p : Settled) : Async :=
  match p with
  | Fulfilled response => Done (Fulfilled response) this
  | Rejected error => Done (Rejected error) this
  end.

(** [execute]: an exception of the check, thrown in an [async] body before
    any [await], rejects the promise; otherwise [axios] is called with the
    object literal and awaited. *)
Definition execute (this : APIRequestBuilder) : Async :=
  match validateRequestComponents this with
  | (Throw e, this1) => Done (Rejected e) this1
  | (Normal _, this1) => Await (requestConfig this1) (settle_as this1)
  end.

(** ** Running against a transport *)

Section Transport.
Variable World : Type.
Variable axios : AxiosRequestConfig.t -> World -> Settled * World.

(** Where a run ends: what the promise of the method settled to, the
    state of the instance, every descriptor the transport was handed
    (oldest first, as it was at the call), and the transport's state. *)
Record Outcome : Type := mkOutcome {
  settled : Settled;
  builder : APIRequestBuilder;
  calls : list AxiosRequestConfig.t;
  world : World
}.

Fixpoint run (p : Async) (log : list AxiosRequestConfig.t) (w : World)
  : Outcome :=
  match p with
  | Done s this => mkOutcome s this log w
  | Await request k =>
      let (r, w') := axios request w in
      run (k r) (log ++ [request]) w'
  end.
End Transport.
End Builder.

Arguments Normal {_ A} a.
Arguments Throw {_ A} e.
Arguments mkOutcome {_ World} settled builder calls world.
Arguments settled {_ World} o.
Arguments builder {_ World} o.
Arguments calls {_ World} o.
Arguments world {_ World} o.
Arguments run {_ World} axios p log w.

(** ** A concrete runtime and two transports, to run the builder on *)

(** Just enough values: [undefined], strings, and [Error] objects. *)
Inductive JsValue : Type :=
  | JsUndefined
  | JsString (s : string)
  | JsError (message : string).

(** Numbers are integers here: enough for a literal such as [10]. *)
Definition demo_runtime : JsRuntime :=
  {| any := JsValue; number := Z;
     undefined := JsUndefined; new_Error := JsError |}.

(** A transport that answers every request with its url; its state counts
    the requests it has received. *)
Definition serve (request : @AxiosRequestConfig.t demo_runtime) (n : nat)
  : @Settled demo_runtime * nat :=
  (@Fulfilled demo_runtime (JsString (AxiosRequestConfig.url request)), S n).

(** A transport that fails every request. *)
Definition refuse (request : @AxiosRequestConfig.t demo_runtime) (n : nat)
  : @Settled demo_runtime * nat :=
  (@Rejected demo_runtime (JsError "Network Error"), S n).

(** The builder of the end-to-end example, with [10] for the limit. *)
Definition users_request : @APIRequestBuilder demo_runtime :=
  @setQueryParameters demo_runtime {["limit" := inr 10%Z]}
    (setRelativePath "/users"
       (get (constructor "https://api.example.com" (Some "T")))).

(** A builder switched to POST with a body, then back to GET. *)
Definition get_after_post : @APIRequestBuilder demo_runtime :=
  get (@post demo_runtime (JsString "payload")
         (constructor "https://api.example.com" None)).

(** * Properties *)

Section Properties.
Context `{JsRuntime}.

(** ** Truthiness and the check *)

Lemma ToBoolean_true (s : string) : ToBoolean s = true <-> s <> "".
Proof.
  destruct s as [|c s]; simpl; split; intro E;
    try reflexivity; try discriminate; congruence.
Qed.

Lemma ToBoolean_false (s : string) : ToBoolean s = false <-> s = "".
Proof.
  destruct s as [|c s]; simpl; split; intro E;
    try reflexivity; discriminate.
Qed.

Lemma validate_throws (this : APIRequestBuilder) :
  baseUrl this = "" ->
  validateRequestComponents this =
    (Throw (new_Error "Base URL is missing. Use setBaseUrl() to set it."),
     this).
Proof.
  intros E. unfold validateRequestComponents.
  apply ToBoolean_false in E. now rewrite E.
Qed.

Lemma validate_passes (this : APIRequestBuilder) :
  baseUrl this <> "" ->
  validateRequestComponents this = (Normal tt, this).
Proof.
  intros E. unfold validateRequestComponents.
  apply ToBoolean_true in E. now rewrite E.
Qed.

(** The check never changes the instance, whichever way it completes. *)
Lemma validate_keeps_this (this : APIRequestBuilder) :
  snd (validateRequestComponents this) = this.
Proof.
  unfold validateRequestComponents.
  now destruct (negb (ToBoolean (baseUrl this))).
Qed.

(** ** The shape of [execute] *)

Lemma settle_as_Done (this : APIRequestBuilder) (p : Settled) :
  settle_as this p = Done p this.
Proof. now destruct p. Qed.

Lemma execute_invalid (this : APIRequestBuilder) :
  baseUrl this = "" ->
  execute this =
    Done (Rejected
            (new_Error "Base URL is missing. Use setBaseUrl() to set it."))
         this.
Proof. intros E. unfold execute. now rewrite (validate_throws _ E). Qed.

Lemma execute_valid (this : APIRequestBuilder) :
  baseUrl this <> "" ->
  execute this = Await (requestConfig this) (settle_as this).
Proof. intros E. unfold execute. now rewrite (validate_passes _ E). Qed.

(** ** Strings *)

Lemma append_empty_r (s : string) : s +:+ "" = s.
Proof.
  induction s as [|c s IH]; [reflexivity|].
  change (String c (s +:+ "") = String c s). now rewrite IH.
Qed.

Lemma length_append (s1 s2 : string) :
  String.length (s1 +:+ s2) = String.length s1 + String.length s2.
Proof.
  induction s1 as [|c s1 IH]; [reflexivity|].
  change (S (String.length (s1 +:+ s2))
          = S (String.length s1) + String.length s2).
  now rewrite IH.
Qed.

(** ** The constructor and the configuration methods *)

Lemma constructor_truthy_token (base t : string) :
  t <> "" ->
  constructor base (Some t) =
    mkBuilder "GET" base "" {["Authorization" := "Bearer " +:+ t]}
              undefined ∅ json (Some t).
Proof.
  intros Ht. apply ToBoolean_true in Ht.
  unfold constructor, assign_Authorization. simpl. rewrite Ht. simpl.
  now rewrite insert_empty.
Qed.

Lemma constructor_falsy_token (base : string) (tok : option string) :
  ToBoolean_opt tok = false ->
  constructor base tok = mkBuilder "GET" base "" ∅ undefined ∅ json tok.
Proof. intros Ht. unfold constructor. simpl. now rewrite Ht. Qed.

Lemma headers_setToken_Authorization (x : string) (this : APIRequestBuilder) :
  headers (setToken x this) !! "Authorization" = Some ("Bearer " +:+ x).
Proof. unfold setToken, assign_Authorization. simpl. apply lookup_insert_eq. Qed.

Lemma headers_setToken_other (x k : string) (this : APIRequestBuilder) :
  k <> "Authorization" ->
  headers (setToken x this) !! k = headers this !! k.
Proof.
  intros Hk. unfold setToken, assign_Authorization. simpl.
  apply lookup_insert_ne. congruence.
Qed.

Lemma setToken_twice (x1 x2 : string) (this : APIRequestBuilder) :
  setToken x2 (setToken x1 this) = setToken x2 this.
Proof.
  unfold setToken, assign_Authorization. simpl. f_equal.
  apply insert_insert_eq.
Qed.

(** ** Chains of calls *)

Lemma chain_cons (c : Call) (cs : list Call) (this : APIRequestBuilder) :
  chain (c :: cs) this = chain cs (call c this).
Proof. reflexivity. Qed.

Lemma chain_app (cs1 cs2 : list Call) (this : APIRequestBuilder) :
  chain (cs1 ++ cs2) this = chain cs2 (chain cs1 this).
Proof. unfold chain. apply fold_left_app. Qed.

(** A field is kept by a chain when each call of the chain keeps it: by
    induction on the chain, then by cases on the call; the calls that assign
    the field are those the hypothesis excludes. *)
Ltac kept_by_chain Hcs this :=
  revert this;
  induction Hcs as [|c cs Hc _ IH]; intros this; [reflexivity|];
  rewrite chain_cons, IH;
  destruct c;
  solve [reflexivity | exfalso; apply Hc; reflexivity
         | exfalso; simpl in Hc; destruct Hc as (? & ? & ?); congruence].

Lemma chain_keeps_baseUrl (cs : list Call) (this : APIRequestBuilder) :
  Forall (fun c => name c <> "setBaseUrl") cs ->
  baseUrl (chain cs this) = baseUrl this.
Proof. intros Hcs. kept_by_chain Hcs this. Qed.

Lemma chain_keeps_resource (cs : list Call) (this : APIRequestBuilder) :
  Forall (fun c => name c <> "setRelativePath") cs ->
  resource (chain cs this) = resource this.
Proof. intros Hcs. kept_by_chain Hcs this. Qed.

Lemma chain_keeps_queryParams (cs : list Call) (this : APIRequestBuilder) :
  Forall (fun c => name c <> "setQueryParameters") cs ->
  queryParams (chain cs this) = queryParams this.
Proof. intros Hcs. kept_by_chain Hcs this. Qed.

Lemma chain_keeps_responseType (cs : list Call) (this : APIRequestBuilder) :
  Forall (fun c => name c <> "setResponseType") cs ->
  responseType (chain cs this) = responseType this.
Proof. intros Hcs. kept_by_chain Hcs this. Qed.

Lemma chain_keeps_headers (cs : list Call) (this : APIRequestBuilder) :
  Forall (fun c => name c <> "setToken") cs ->
  headers (chain cs this) = headers this.
Proof. intros Hcs. kept_by_chain Hcs this. Qed.

Lemma chain_keeps_data (cs : list Call) (this : APIRequestBuilder) :
  Forall (fun c => name c <> "post" /\ name c <> "put" /\ name c <> "patch")
         cs ->
  data (chain cs this) = data this.
Proof. intros Hcs. kept_by_chain Hcs this. Qed.

(** A chain without request-method calls keeps the method. *)
Lemma chain_keeps_method (cs : list Call) (this : APIRequestBuilder) :
  Forall (fun c => ~ In (name c) ["get"; "post"; "put"; "delete"; "patch"])
         cs ->
  method (chain cs this) = method this.
Proof.
  intros Hcs. revert this.
  induction Hcs as [|c cs Hc _ IH]; intros this; [reflexivity|].
  rewrite chain_cons, IH.
  destruct c; try reflexivity; exfalso; apply Hc; simpl; auto 6.
Qed.

(** No method assigns the field [token]. *)
Lemma chain_keeps_token (cs : list Call) (this : APIRequestBuilder) :
  token (chain cs this) = token this.
Proof.
  revert this. induction cs as [|c cs IH]; intros this; [reflexivity|].
  rewrite chain_cons, IH. now destruct c.
Qed.

(** The method of a builder made by the constructor and a chain of calls is
    one of the five literals. *)
Lemma chain_method (cs : list Call) (base : string) (tok : option string) :
  In (method (chain cs (constructor base tok)))
     ["GET"; "POST"; "PUT"; "DELETE"; "PATCH"].
Proof.
  assert (G : forall this,
             In (method this) ["GET"; "POST"; "PUT"; "DELETE"; "PATCH"] ->
             In (method (chain cs this))
                ["GET"; "POST"; "PUT"; "DELETE"; "PATCH"]).
  { induction cs as [|c cs IH]; intros this Hm; [exact Hm|].
    rewrite chain_cons. apply IH. destruct c; simpl; auto 6. }
  apply G. unfold constructor. simpl.
  destruct (ToBoolean_opt tok); simpl; auto.
Qed.

(** C5: [setQueryParameters p1] then [setQueryParameters p2] leaves the
    query parameters equal to [p2], with nothing of [p1] kept, and the builder
    is as if only the second call had been made; the same holds for two calls
    of [setBaseUrl], [setRelativePath], [setResponseType] and [setToken], and
    for two calls of [post], [put] or [patch] with two bodies.  In any chain
    of calls, the field a configuration setter assigns holds the argument of
    the last call of that setter. *)
Theorem setters_last_call_wins (this : APIRequestBuilder) :
  (forall p1 p2 : gmap string (string + number),
     queryParams (setQueryParameters p2 (setQueryParameters p1 this)) = p2 /\
     (forall k,
        queryParams (setQueryParameters p2 (setQueryParameters p1 this)) !! k
        = p2 !! k) /\
     setQueryParameters p2 (setQueryParameters p1 this)
     = setQueryParameters p2 this) /\
  (forall u1 u2 : string,
     baseUrl (setBaseUrl u2 (setBaseUrl u1 this)) = u2 /\
     setBaseUrl u2 (setBaseUrl u1 this) = setBaseUrl u2 this) /\
  (forall r1 r2 : string,
     resource (setRelativePath r2 (setRelativePath r1 this)) = r2 /\
     setRelativePath r2 (setRelativePath r1 this) = setRelativePath r2 this) /\
  (forall t1 t2 : ResponseType,
     responseType (setResponseType t2 (setResponseType t1 this)) = t2 /\
     setResponseType t2 (setResponseType t1 this) = setResponseType t2 this) /\
  (forall x1 x2 : string,
     headers (setToken x2 (setToken x1 this)) !! "Authorization"
     = Some ("Bearer " +:+ x2) /\
     setToken x2 (setToken x1 this) = setToken x2 this) /\
  (forall d1 d2 : any,
     data (post d2 (post d1 this)) = d2 /\
     post d2 (post d1 this) = post d2 this /\
     data (put d2 (put d1 this)) = d2 /\
     put d2 (put d1 this) = put d2 this /\
     data (patch d2 (patch d1 this)) = d2 /\
     patch d2 (patch d1 this) = patch d2 this) /\
  (forall cs cs' : list Call,
     (forall p,
        Forall (fun c => name c <> "setQueryParameters") cs' ->
        queryParams (chain (cs ++ SetQueryParameters p :: cs') this) = p) /\
     (forall u,
        Forall (fun c => name c <> "setBaseUrl") cs' ->
        baseUrl (chain (cs ++ SetBaseUrl u :: cs') this) = u) /\
     (forall r,
        Forall (fun c => name c <> "setRelativePath") cs' ->
        resource (chain (cs ++ SetRelativePath r :: cs') this) = r) /\
     (forall t,
        Forall (fun c => name c <> "setResponseType") cs' ->
        responseType (chain (cs ++ SetResponseType t :: cs') this) = t) /\
     (forall x,
        Forall (fun c => name c <> "setToken") cs' ->
        headers (chain (cs ++ SetToken x :: cs') this) !! "Authorization"
        = Some ("Bearer " +:+ x))).
Proof.
  split; [intros p1 p2; repeat split|].
  split; [intros u1 u2; repeat split|].
  split; [intros r1 r2; repeat split|].
  split; [intros t1 t2; repeat split|].
  split.
  { intros x1 x2. split.
    - apply headers_setToken_Authorization.
    - apply setToken_twice. }
  split; [intros d1 d2; repeat split|].
  intros cs cs'. repeat split; intros v Hcs'; rewrite chain_app, chain_cons.
  - now rewrite chain_keeps_queryParams.
  - now rewrite chain_keeps_baseUrl.
  - now rewrite chain_keeps_resource.
  - now rewrite chain_keeps_responseType.
  - rewrite chain_keeps_headers by assumption.
    apply headers_setToken_Authorization.
Qed.

(** C6: a builder constructed with a non-empty token [t] has exactly one
    header, [Authorization], whose value is ["Bearer " + t]; on any builder,
    [setToken x] makes the [Authorization] header ["Bearer " + x] and leaves
    the lookup of every other header name as it was. *)
Theorem token_sets_only_Authorization (base t : string) :
  t <> "" ->
  headers (constructor base (Some t))
  = {["Authorization" := "Bearer " +:+ t]} /\
  (forall k v, headers (constructor base (Some t)) !! k = Some v <->
               k = "Authorization" /\ v = "Bearer " +:+ t) /\
  (forall (x : string) (this : APIRequestBuilder),
     headers (setToken x this) !! "Authorization" = Some ("Bearer " +:+ x) /\
     (forall k, k <> "Authorization" ->
                headers (setToken x this) !! k = headers this !! k)) /\
  (forall x : string,
     headers (setToken x (constructor base (Some t)))
     = {["Authorization" := "Bearer " +:+ x]}).
Proof.
  intros Ht. rewrite (constructor_truthy_token base t Ht). simpl.
  split; [reflexivity|]. split; [|split].
  - intros k v. rewrite lookup_singleton_Some. intuition congruence.
  - intros x this. split.
    + apply headers_setToken_Authorization.
    + intros k Hk. now apply headers_setToken_other.
  - intros x. unfold setToken, assign_Authorization. simpl.
    apply insert_singleton_eq.
Qed.

(** C7: after [post b] then [get] the method is GET and the body is still
    [b].  Every method assigns its own field or fields and nothing else:
    [get] and [delete] only [method]; [post], [put] and [patch] only [method]
    and [data]; [setBaseUrl] only [baseUrl]; [setRelativePath] only
    [resource]; [setQueryParameters] only [queryParams]; [setResponseType]
    only [responseType]; [setToken] only the [Authorization] entry of
    [headers].  So a chain of calls keeps a field unless it contains a call
    of a method that assigns it. *)
Theorem methods_touch_own_fields (this : APIRequestBuilder) :
  (forall b : any,
     method (get (post b this)) = "GET" /\ data (get (post b this)) = b /\
     method (delete (post b this)) = "DELETE" /\
     data (delete (post b this)) = b /\
     data (get (put b this)) = b /\ data (get (patch b this)) = b) /\
  get this =
    mkBuilder "GET" (baseUrl this) (resource this) (headers this) (data this)
              (queryParams this) (responseType this) (token this) /\
  delete this =
    mkBuilder "DELETE" (baseUrl this) (resource this) (headers this)
              (data this) (queryParams this) (responseType this)
              (token this) /\
  (forall u : string,
     setBaseUrl u this =
       mkBuilder (method this) u (resource this) (headers this) (data this)
                 (queryParams this) (responseType this) (token this)) /\
  (forall r : string,
     setRelativePath r this =
       mkBuilder (method this) (baseUrl this) r (headers this) (data this)
                 (queryParams this) (responseType this) (token this)) /\
  (forall t : ResponseType,
     setResponseType t this =
       mkBuilder (method this) (baseUrl this) (resource this) (headers this)
                 (data this) (queryParams this) t (token this)) /\
  (forall p : gmap string (string + number),
     setQueryParameters p this =
       mkBuilder (method this) (baseUrl this) (resource this) (headers this)
                 (data this) p (responseType this) (token this)) /\
  (forall x : string,
     method (setToken x this) = method this /\
     baseUrl (setToken x this) = baseUrl this /\
     resource (setToken x this) = resource this /\
     data (setToken x this) = data this /\
     queryParams (setToken x this) = queryParams this /\
     responseType (setToken x this) = responseType this /\
     token (setToken x this) = token this /\
     headers (setToken x this) !! "Authorization" = Some ("Bearer " +:+ x) /\
     (forall k, k <> "Authorization" ->
                headers (setToken x this) !! k = headers this !! k)) /\
  (forall d : any,
     post d this =
       mkBuilder "POST" (baseUrl this) (resource this) (headers this) d
                 (queryParams this) (responseType this) (token this) /\
     put d this =
       mkBuilder "PUT" (baseUrl this) (resource this) (headers this) d
                 (queryParams this) (responseType this) (token this) /\
     patch d this =
       mkBuilder "PATCH" (baseUrl this) (resource this) (headers this) d
                 (queryParams this) (responseType this) (token this)) /\
  (forall cs : list Call,
     (Forall (fun c =>
                ~ In (name c) ["get"; "post"; "put"; "delete"; "patch"]) cs ->
      method (chain cs this) = method this) /\
     (Forall (fun c => name c <> "post" /\ name c <> "put" /\
                       name c <> "patch") cs ->
      data (chain cs this) = data this) /\
     (Forall (fun c => name c <> "setBaseUrl") cs ->
      baseUrl (chain cs this) = baseUrl this) /\
     (Forall (fun c => name c <> "setRelativePath") cs ->
      resource (chain cs this) = resource this) /\
     (Forall (fun c => name c <> "setQueryParameters") cs ->
      queryParams (chain cs this) = queryParams this) /\
     (Forall (fun c => name c <> "setResponseType") cs ->
      responseType (chain cs this) = responseType this) /\
     (Forall (fun c => name c <> "setToken") cs ->
      headers (chain cs this) = headers this) /\
     (forall k, k <> "Authorization" ->
                headers (chain cs this) !! k = headers this !! k) /\
     token (chain cs this) = token this).
Proof.
  split; [intros b; repeat split|].
  do 6 (split; [reflexivity|]).
  split.
  { intros x. do 7 (split; [reflexivity|]). split.
    - apply headers_setToken_Authorization.
    - intros k Hk. now apply headers_setToken_other. }
  split; [intros d; repeat split|].
  intros cs.
  split; [apply chain_keeps_method|].
  split; [apply chain_keeps_data|].
  split; [apply chain_keeps_baseUrl|].
  split; [apply chain_keeps_resource|].
  split; [apply chain_keeps_queryParams|].
  split; [apply chain_keeps_responseType|].
  split; [apply chain_keeps_headers|].
  split; [|apply chain_keeps_token].
  intros k Hk. revert this.
  induction cs as [|c cs IH]; intros this; [reflexivity|].
  rewrite chain_cons, IH.
  destruct c; try reflexivity. now apply headers_setToken_other.
Qed.

(** C10: a builder constructed with the empty string as token has no header
    at all, whereas [setToken ""] on any builder sets the [Authorization]
    header to ["Bearer "]; so the two builders differ in their headers. *)
Theorem empty_token_constructor_vs_setToken (base : string) :
  headers (constructor base (Some "")) = ∅ /\
  headers (constructor base (Some "")) !! "Authorization" = None /\
  (forall this : APIRequestBuilder,
     headers (setToken "" this) !! "Authorization" = Some "Bearer ") /\
  headers (setToken "" (constructor base None))
  <> headers (constructor base (Some "")).
Proof.
  rewrite (constructor_falsy_token base (Some "") eq_refl).
  split; [reflexivity|]. split; [apply lookup_empty|]. split.
  - intros this. apply headers_setToken_Authorization.
  - intros E.
    apply (f_equal (fun m : gmap string string => m !! "Authorization")) in E.
    rewrite headers_setToken_Authorization in E. discriminate.
Qed.

Section WithTransport.
Variable World : Type.
Variable axios : AxiosRequestConfig.t -> World -> Settled * World.

Lemma run_execute_invalid (this : APIRequestBuilder)
    (log : list AxiosRequestConfig.t) (w : World) :
  baseUrl this = "" ->
  run axios (execute this) log w =
    mkOutcome
      (Rejected (new_Error "Base URL is missing. Use setBaseUrl() to set it."))
      this log w.
Proof. intros E. now rewrite (execute_invalid _ E). Qed.

Lemma run_execute_valid (this : APIRequestBuilder)
    (log : list AxiosRequestConfig.t) (w : World) :
  baseUrl this <> "" ->
  run axios (execute this) log w =
    mkOutcome (fst (axios (requestConfig this) w)) this
              (log ++ [requestConfig this])
              (snd (axios (requestConfig this) w)).
Proof.
  intros E. rewrite (execute_valid _ E). simpl.
  destruct (axios (requestConfig this) w) as [p w']. simpl.
  now rewrite settle_as_Done.
Qed.

(** Whatever the state, the run ends with the instance as it was. *)
Lemma run_execute_builder (this : APIRequestBuilder)
    (log : list AxiosRequestConfig.t) (w : World) :
  builder (run axios (execute this) log w) = this.
Proof.
  destruct (decide (baseUrl this = "")) as [E|E].
  - now rewrite (run_execute_invalid _ _ _ E).
  - now rewrite (run_execute_valid _ _ _ E).
Qed.

(** C1: when [baseUrl] is the empty string, [execute] ends without awaiting
    anything, its promise rejected with an [Error] made on the spot; run
    against any transport, the transport is handed nothing (the log and the
    transport's state are as before); and the message of the error contains
    the name of the field, "Base URL", and of the setter, "setBaseUrl". *)
Theorem execute_rejects_missing_baseUrl (this : APIRequestBuilder)
    (log : list AxiosRequestConfig.t) (w : World) :
  baseUrl this = "" ->
  let message := "Base URL is missing. Use setBaseUrl() to set it." in
  execute this = Done (Rejected (new_Error message)) this /\
  run axios (execute this) log w
  = mkOutcome (Rejected (new_Error message)) this log w /\
  calls (run axios (execute this) log w) = log /\
  world (run axios (execute this) log w) = w /\
  String.index 0 "Base URL" message = Some 0 /\
  String.index 0 "setBaseUrl" message = Some 25.
Proof.
  intros E message. rewrite (run_execute_invalid this log w E).
  rewrite (execute_invalid this E). repeat split.
Qed.

(** C2: when [baseUrl] is not empty, [execute] hands the transport one
    descriptor, once, made of the method, the url, the body, the headers, the
    query parameters and the response type of the current state; when the
    transport fulfils the request, the promise of [execute] is fulfilled with
    the very response of the transport.  The builder of the end-to-end
    example hands over GET, "https://api.example.com/users", the header
    Authorization = "Bearer T", the parameter limit = 10, the response type
    json, and no body. *)
Theorem execute_hands_descriptor_once (this : APIRequestBuilder)
    (log : list AxiosRequestConfig.t) (w : World) :
  baseUrl this <> "" ->
  calls (run axios (execute this) log w) = log ++ [requestConfig this] /\
  world (run axios (execute this) log w)
  = snd (axios (requestConfig this) w) /\
  (forall (response : any) (w' : World),
     axios (requestConfig this) w = (Fulfilled response, w') ->
     run axios (execute this) log w
     = mkOutcome (Fulfilled response) this (log ++ [requestConfig this]) w') /\
  requestConfig this
  = AxiosRequestConfig.mk (method this) (baseUrl this +:+ resource this)
      (data this) (headers this) (queryParams this) (responseType this) /\
  (forall (ten : number) (log0 : list AxiosRequestConfig.t) (w0 : World),
     calls
       (run axios
          (execute
             (setQueryParameters {["limit" := inr ten]}
                (setRelativePath "/users"
                   (get (constructor "https://api.example.com" (Some "T"))))))
          log0 w0)
     = log0 ++
       [AxiosRequestConfig.mk "GET" "https://api.example.com/users" undefined
          {["Authorization" := "Bearer T"]} {["limit" := inr ten]} json]).
Proof.
  intros E. rewrite (run_execute_valid this log w E).
  split; [reflexivity|]. split; [reflexivity|]. split; [|split].
  - intros response w' Hax. now rewrite Hax.
  - reflexivity.
  - intros ten log0 w0. rewrite run_execute_valid by discriminate.
    reflexivity.
Qed.

(** C3: when [execute] calls the transport, the url of the descriptor is
    [baseUrl] followed at once by [resource]: its length is the sum of the
    two lengths, and when [resource] is empty it is [baseUrl] itself. *)
Theorem execute_url_is_concatenation (this : APIRequestBuilder)
    (log : list AxiosRequestConfig.t) (w : World) :
  baseUrl this <> "" ->
  map AxiosRequestConfig.url (calls (run axios (execute this) log w))
  = map AxiosRequestConfig.url log ++ [baseUrl this +:+ resource this] /\
  String.length (AxiosRequestConfig.url (requestConfig this))
  = String.length (baseUrl this) + String.length (resource this) /\
  (resource this = "" ->
   map AxiosRequestConfig.url (calls (run axios (execute this) log w))
   = map AxiosRequestConfig.url log ++ [baseUrl this]).
Proof.
  intros E. rewrite (run_execute_valid this log w E). simpl.
  rewrite map_app. simpl. split; [reflexivity|]. split.
  - apply length_append.
  - intros R. now rewrite R, append_empty_r.
Qed.

(** C4, as the code has it: whatever the method, the body of the descriptor
    that [execute] hands to the transport is the body the builder holds.  A
    body given to [post], [put] or [patch] is still handed over after [get]
    or [delete]; the body is [undefined] for a builder fresh from the
    constructor, also after [get] or [delete]. *)
Theorem execute_hands_over_held_body (this : APIRequestBuilder)
    (log : list AxiosRequestConfig.t) (w : World) :
  baseUrl this <> "" ->
  map (fun c => (AxiosRequestConfig.method c, AxiosRequestConfig.data c))
      (calls (run axios (execute this) log w))
  = map (fun c => (AxiosRequestConfig.method c, AxiosRequestConfig.data c)) log
    ++ [(method this, data this)] /\
  (forall d : any,
     AxiosRequestConfig.data (requestConfig (get (post d this))) = d /\
     AxiosRequestConfig.data (requestConfig (get (put d this))) = d /\
     AxiosRequestConfig.data (requestConfig (get (patch d this))) = d /\
     AxiosRequestConfig.data (requestConfig (delete (post d this))) = d /\
     AxiosRequestConfig.data (requestConfig (delete (put d this))) = d /\
     AxiosRequestConfig.data (requestConfig (delete (patch d this))) = d) /\
  (forall (base : string) (tok : option string),
     AxiosRequestConfig.data (requestConfig (constructor base tok))
     = undefined /\
     AxiosRequestConfig.data (requestConfig (get (constructor base tok)))
     = undefined /\
     AxiosRequestConfig.data (requestConfig (delete (constructor base tok)))
     = undefined).
Proof.
  intros E. rewrite (run_execute_valid this log w E). simpl.
  rewrite map_app. simpl. split; [reflexivity|]. split.
  - intros d. repeat split.
  - intros base tok. unfold constructor. simpl.
    destruct (ToBoolean_opt tok); repeat split.
Qed.

(** C8: when [baseUrl] is not empty and the transport rejects the request
    with [e], the promise of [execute] is rejected with [e] itself, and the
    transport has been handed one descriptor, once. *)
Theorem execute_propagates_transport_error (this : APIRequestBuilder)
    (log : list AxiosRequestConfig.t) (w w' : World) (e : any) :
  baseUrl this <> "" ->
  axios (requestConfig this) w = (Rejected e, w') ->
  run axios (execute this) log w
  = mkOutcome (Rejected e) this (log ++ [requestConfig this]) w' /\
  settled (run axios (execute this) log w) = Rejected e /\
  length (calls (run axios (execute this) log w)) = S (length log).
Proof.
  intros E Hax. rewrite (run_execute_valid this log w E), Hax. simpl.
  repeat split. rewrite length_app. simpl. lia.
Qed.

(** C9: however [execute] ends, by the rejection of the check, by the
    response of the transport or by its error, the builder holds the same
    eight fields afterwards; a second [execute], on the builder as it is or
    after any further configuration [f], runs as on the builder before the
    first one. *)
Theorem execute_leaves_configuration (this : APIRequestBuilder)
    (log : list AxiosRequestConfig.t) (w : World) :
  let o := run axios (execute this) log w in
  builder o = this /\
  (method (builder o) = method this /\
   baseUrl (builder o) = baseUrl this /\
   resource (builder o) = resource this /\
   headers (builder o) = headers this /\
   data (builder o) = data this /\
   queryParams (builder o) = queryParams this /\
   responseType (builder o) = responseType this /\
   token (builder o) = token this) /\
  (forall (f : APIRequestBuilder -> APIRequestBuilder),
     run axios (execute (f (builder o))) (calls o) (world o)
     = run axios (execute (f this)) (calls o) (world o)).
Proof.
  intros o. subst o. rewrite (run_execute_builder this log w).
  repeat split.
Qed.

End WithTransport.
End Properties.

(** * The theorems at work on the concrete runtime *)

Section Instances.
Local Existing Instance demo_runtime.

Lemma execute_rejects_missing_baseUrl_witness :
  baseUrl (constructor "" (Some "T")) = "" /\
  run serve (execute (constructor "" (Some "T"))) [] 0
  = mkOutcome
      (Rejected (JsError "Base URL is missing. Use setBaseUrl() to set it."))
      (constructor "" (Some "T")) [] 0.
Proof.
  split; [reflexivity|].
  exact (proj1 (proj2 (execute_rejects_missing_baseUrl nat serve
                         (constructor "" (Some "T")) [] 0 eq_refl))).
Defined.

Lemma execute_hands_descriptor_once_witness :
  baseUrl users_request <> "" /\
  serve (requestConfig users_request) 0
  = (Fulfilled (JsString "https://api.example.com/users"), 1) /\
  run serve (execute users_request) [] 0
  = mkOutcome (Fulfilled (JsString "https://api.example.com/users"))
      users_request
      [AxiosRequestConfig.mk "GET" "https://api.example.com/users" JsUndefined
         {["Authorization" := "Bearer T"]} {["limit" := inr 10%Z]} json]
      1.
Proof.
  split; [discriminate|]. split; [reflexivity|].
  exact (proj1 (proj2 (proj2
           (execute_hands_descriptor_once nat serve users_request [] 0
              ltac:(discriminate))))
           (JsString "https://api.example.com/users") 1 eq_refl).
Defined.

Lemma execute_url_is_concatenation_witness :
  baseUrl users_request <> "" /\
  map AxiosRequestConfig.url (calls (run serve (execute users_request) [] 0))
  = ["https://api.example.com/users"].
Proof.
  split; [discriminate|].
  exact (proj1 (execute_url_is_concatenation nat serve users_request [] 0
                  ltac:(discriminate))).
Defined.

Lemma execute_hands_over_held_body_witness :
  baseUrl get_after_post <> "" /\
  map (fun c => (AxiosRequestConfig.method c, AxiosRequestConfig.data c))
      (calls (run serve (execute get_after_post) [] 0))
  = [("GET", JsString "payload")].
Proof.
  split; [discriminate|].
  exact (proj1 (execute_hands_over_held_body nat serve get_after_post [] 0
                  ltac:(discriminate))).
Defined.

Lemma token_sets_only_Authorization_witness :
  "T" <> "" /\
  headers (constructor "https://api.example.com" (Some "T"))
  = {["Authorization" := "Bearer T"]}.
Proof.
  split; [discriminate|].
  exact (proj1 (token_sets_only_Authorization "https://api.example.com" "T"
                  ltac:(discriminate))).
Defined.

Lemma execute_propagates_transport_error_witness :
  baseUrl users_request <> "" /\
  refuse (requestConfig users_request) 0
  = (Rejected (JsError "Network Error"), 1) /\
  run refuse (execute users_request) [] 0
  = mkOutcome (Rejected (JsError "Network Error")) users_request
      [requestConfig users_request] 1.
Proof.
  split; [discriminate|]. split; [reflexivity|].
  exact (proj1 (execute_propagates_transport_error nat refuse users_request
                  [] 0 1 (JsError "Network Error")
                  ltac:(discriminate) eq_refl)).
Defined.

(** C4, as the spec states it, fails on [get_after_post]: its method is GET,
    neither POST, PUT nor PATCH, and the one descriptor [execute] hands to
    the transport carries the body "payload", which is not [undefined]. *)
Lemma get_after_post_hands_over_body :
  method get_after_post = "GET" /\
  calls (run serve (execute get_after_post) [] 0)
  = [AxiosRequestConfig.mk "GET" "https://api.example.com"
       (JsString "payload") ∅ ∅ json] /\
  JsString "payload" <> undefined.
Proof. split; [reflexivity|]. split; [reflexivity|]. discriminate. Qed.

(** So no transport-independent rule "the body is absent unless the method
    is POST, PUT or PATCH" holds of the descriptors. *)
Lemma body_not_dropped_for_get :
  ~ (forall this : APIRequestBuilder,
       baseUrl this <> "" ->
       method this <> "POST" -> method this <> "PUT" ->
       method this <> "PATCH" ->
       forall c, In c (calls (run serve (execute this) [] 0)) ->
                 AxiosRequestConfig.data c = undefined).
Proof.
  intros claim.
  pose proof (claim get_after_post ltac:(discriminate) ltac:(discriminate)
                ltac:(discriminate) ltac:(discriminate)
                (requestConfig get_after_post) (or_introl eq_refl)) as E.
  discriminate E.
Qed.

End Instances.

(** * Further properties: chains of calls *)

Section Chains.
Context `{JsRuntime}.

Lemma append_assoc (s1 s2 s3 : string) :
  (s1 +:+ s2) +:+ s3 = s1 +:+ (s2 +:+ s3).
Proof.
  induction s1 as [|c s1 IH]; [reflexivity|].
  change (String c ((s1 +:+ s2) +:+ s3) = String c (s1 +:+ (s2 +:+ s3))).
  now rewrite IH.
Qed.

Lemma append_nonempty_r (s : string) (c : Ascii.ascii) (s' : string) :
  s +:+ String c s' <> "".
Proof. destruct s; discriminate. Qed.

Lemma token_constructor (base : string) (tok : option string) :
  token (constructor base tok) = tok.
Proof. unfold constructor. simpl. now destruct (ToBoolean_opt tok). Qed.

(** The headers the class can make: nothing but [Authorization], with a
    value made by the template ["Bearer " + x]. *)
Lemma headers_chain_invariant (cs : list Call) (this : APIRequestBuilder) :
  (forall k v, headers this !! k = Some v ->
               k = "Authorization" /\ exists x, v = "Bearer " +:+ x) ->
  forall k v, headers (chain cs this) !! k = Some v ->
              k = "Authorization" /\ exists x, v = "Bearer " +:+ x.
Proof.
  revert this. induction cs as [|c cs IH]; intros this Hinv; [exact Hinv|].
  rewrite chain_cons. apply IH.
  destruct c; try exact Hinv.
  intros k v. unfold call, setToken, assign_Authorization. simpl.
  destruct (decide (k = "Authorization")) as [->|Hk].
  - rewrite lookup_insert_eq. intros [= <-]. eauto.
  - rewrite lookup_insert_ne by congruence. apply Hinv.
Qed.

(** X2: no method assigns the field [token]: after any chain of calls, also
    one with [setToken], it holds what the constructor was given. *)
Theorem no_call_assigns_token (cs : list Call) :
  (forall this : APIRequestBuilder, token (chain cs this) = token this) /\
  (forall (base : string) (tok : option string),
     token (chain cs (constructor base tok)) = tok) /\
  (forall (base : string) (tok : option string) (x : string),
     token (chain cs (setToken x (constructor base tok))) = tok /\
     headers (setToken x (constructor base tok)) !! "Authorization"
     = Some ("Bearer " +:+ x)).
Proof.
  split; [|split].
  - intros this. apply chain_keeps_token.
  - intros base tok. rewrite chain_keeps_token. apply token_constructor.
  - intros base tok x. split.
    + rewrite chain_keeps_token. apply token_constructor.
    + apply headers_setToken_Authorization.
Qed.

(** X3: whatever chain of calls follows the constructor, a header of the
    builder is the [Authorization] header, and its value is ["Bearer "]
    followed by some token. *)
Theorem headers_hold_only_Authorization (cs : list Call) (base : string)
    (tok : option string) (k v : string) :
  headers (chain cs (constructor base tok)) !! k = Some v ->
  k = "Authorization" /\ exists x, v = "Bearer " +:+ x.
Proof.
  apply headers_chain_invariant. clear k v. intros k v.
  unfold constructor. simpl.
  destruct tok as [t|]; simpl; [destruct (ToBoolean t); simpl|].
  - destruct (decide (k = "Authorization")) as [->|Hk].
    + rewrite lookup_insert_eq. intros [= <-]. eauto.
    + rewrite lookup_insert_ne by congruence. rewrite lookup_empty.
      discriminate.
  - rewrite lookup_empty. discriminate.
  - rewrite lookup_empty. discriminate.
Qed.

(** X4: two calls of methods with different names, not both request
    methods, can be made in either order: the builder ends up the same; and
    so inside any chain. *)
Theorem calls_of_different_fields_commute (c1 c2 : Call)
    (this : APIRequestBuilder) :
  name c1 <> name c2 ->
  ~ (In (name c1) ["get"; "post"; "put"; "delete"; "patch"] /\
     In (name c2) ["get"; "post"; "put"; "delete"; "patch"]) ->
  call c1 (call c2 this) = call c2 (call c1 this) /\
  (forall cs cs' : list Call,
     chain (cs ++ c1 :: c2 :: cs') this = chain (cs ++ c2 :: c1 :: cs') this).
Proof.
  intros Hn Hm.
  assert (C : forall b, call c1 (call c2 b) = call c2 (call c1 b)).
  { intros b. destruct c1, c2; try reflexivity;
      solve [ exfalso; apply Hn; reflexivity
            | exfalso; apply Hm; simpl; auto 8 ]. }
  split; [apply C|].
  intros cs cs'. rewrite !chain_app, !chain_cons. now rewrite C.
Qed.

(** X5: in any chain, the method is that of the last request-method call,
    whatever configuration calls follow it. *)
Theorem last_request_method_wins (cs cs' : list Call)
    (this : APIRequestBuilder) :
  Forall (fun c => ~ In (name c) ["get"; "post"; "put"; "delete"; "patch"])
         cs' ->
  method (chain (cs ++ Get :: cs') this) = "GET" /\
  method (chain (cs ++ Delete :: cs') this) = "DELETE" /\
  (forall d : any,
     method (chain (cs ++ Post d :: cs') this) = "POST" /\
     method (chain (cs ++ Put d :: cs') this) = "PUT" /\
     method (chain (cs ++ Patch d :: cs') this) = "PATCH").
Proof.
  intros Hcs'.
  repeat split; rewrite chain_app, chain_cons, chain_keeps_method;
    auto.
Qed.


End Chains.

(** * Further properties: execution *)

Section Executions.
Context `{JsRuntime}.
Variable World : Type.
Variable axios : AxiosRequestConfig.t -> World -> Settled * World.

(** A chain does with the fields other than [token] the same thing whatever
    [token] holds. *)
Lemma chain_whatever_token (cs : list Call) (tok1 tok2 : option string) :
  forall m u r h d q t,
    chain cs (mkBuilder m u r h d q t tok2)
    = mkBuilder
        (method (chain cs (mkBuilder m u r h d q t tok1)))
        (baseUrl (chain cs (mkBuilder m u r h d q t tok1)))
        (resource (chain cs (mkBuilder m u r h d q t tok1)))
        (headers (chain cs (mkBuilder m u r h d q t tok1)))
        (data (chain cs (mkBuilder m u r h d q t tok1)))
        (queryParams (chain cs (mkBuilder m u r h d q t tok1)))
        (responseType (chain cs (mkBuilder m u r h d q t tok1)))
        tok2.
Proof.
  induction cs as [|c cs IH]; intros m u r h d q t; [reflexivity|].
  rewrite !chain_cons. destruct c; apply IH.
Qed.

(** What [execute] does depends on the fields other than [token] only. *)
Lemma run_execute_whatever_token (m u r : string) (h : gmap string string)
    (d : any) (q : gmap string (string + number)) (t : ResponseType)
    (tok1 tok2 : option string) (log : list AxiosRequestConfig.t) (w : World) :
  let o1 := run axios (execute (mkBuilder m u r h d q t tok1)) log w in
  let o2 := run axios (execute (mkBuilder m u r h d q t tok2)) log w in
  settled o1 = settled o2 /\ calls o1 = calls o2 /\ world o1 = world o2.
Proof.
  intros o1 o2. subst o1 o2.
  destruct (decide (u = "")) as [E|E].
  - rewrite !run_execute_invalid by exact E. repeat split.
  - rewrite !run_execute_valid by exact E. repeat split.
Qed.

(** X1: run against any transport, [execute] leaves the log of calls as it
    was exactly when [baseUrl] is empty, and adds the descriptor of the
    current state, once, exactly when it is not. *)
Theorem transport_called_iff_baseUrl (this : APIRequestBuilder)
    (log : list AxiosRequestConfig.t) (w : World) :
  (calls (run axios (execute this) log w) = log <-> baseUrl this = "") /\
  (calls (run axios (execute this) log w) = log ++ [requestConfig this]
   <-> baseUrl this <> "") /\
  length (calls (run axios (execute this) log w))
  = length log + (if ToBoolean (baseUrl this) then 1 else 0).
Proof.
  assert (N : forall c : AxiosRequestConfig.t, log ++ [c] <> log).
  { intros c E. apply (f_equal (@length _)) in E.
    rewrite length_app in E. simpl in E. lia. }
  destruct (decide (baseUrl this = "")) as [E|E].
  - rewrite (run_execute_invalid _ axios this log w E). simpl.
    rewrite E. simpl. split; [|split].
    + tauto.
    + split; [intros C; destruct (N _ (eq_sym C)) | congruence].
    + lia.
  - rewrite (run_execute_valid _ axios this log w E). simpl.
    apply ToBoolean_true in E as T. rewrite T, length_app. simpl.
    split; [|split].
    + split; [intros C; destruct (N _ C) | tauto].
    + tauto.
    + reflexivity.
Qed.

(** X7: a token given to the constructor and the same token given to
    [setToken] on a builder constructed without one make no difference to
    what is executed, after any chain of calls: the same descriptor, the
    same calls of the transport, the same result. *)
Theorem constructor_token_as_setToken (base t : string) (cs : list Call)
    (log : list AxiosRequestConfig.t) (w : World) :
  t <> "" ->
  let b1 := chain cs (constructor base (Some t)) in
  let b2 := chain cs (setToken t (constructor base None)) in
  requestConfig b1 = requestConfig b2 /\
  settled (run axios (execute b1) log w)
  = settled (run axios (execute b2) log w) /\
  calls (run axios (execute b1) log w)
  = calls (run axios (execute b2) log w) /\
  world (run axios (execute b1) log w)
  = world (run axios (execute b2) log w).
Proof.
  intros Ht b1 b2. subst b1 b2.
  rewrite (constructor_truthy_token base t Ht).
  rewrite (constructor_falsy_token base None eq_refl).
  unfold setToken, assign_Authorization. simpl.
  rewrite insert_empty.
  rewrite (chain_whatever_token cs (Some t) None).
  set (b := chain cs _).
  split; [reflexivity|].
  destruct b as [m u r h d q ty tok]. simpl.
  exact (run_execute_whatever_token m u r h d q ty tok None log w).
Qed.

(** X8: a builder fresh from the constructor, with a base URL that is not
    empty, executes as a GET of the base URL itself, with no body, no query
    parameter, the response type json, and no header but the bearer token
    when a non-empty token was given. *)
Theorem fresh_builder_defaults (base : string) (tok : option string)
    (log : list AxiosRequestConfig.t) (w : World) :
  base <> "" ->
  calls (run axios (execute (constructor base tok)) log w)
  = log ++
    [AxiosRequestConfig.mk "GET" base undefined
       (if ToBoolean_opt tok
        then {["Authorization" := "Bearer " +:+ ToString_opt tok]}
        else ∅)
       ∅ json].
Proof.
  intros Hb.
  assert (B : baseUrl (constructor base tok) = base)
    by (unfold constructor; simpl; now destruct (ToBoolean_opt tok)).
  rewrite run_execute_valid by (rewrite B; exact Hb). simpl.
  do 2 f_equal. unfold requestConfig, constructor. simpl.
  destruct (ToBoolean_opt tok); simpl; rewrite append_empty_r;
    [rewrite insert_empty|]; reflexivity.
Qed.

(** X9: two calls of [execute] in a row, on a builder with a base URL, hand
    the transport the same descriptor twice: nothing is remembered from the
    first call, and the second result is the transport's answer to the second
    request. *)
Theorem execute_twice_calls_twice (this : APIRequestBuilder)
    (log : list AxiosRequestConfig.t) (w : World) :
  baseUrl this <> "" ->
  let o1 := run axios (execute this) log w in
  let o2 := run axios (execute (builder o1)) (calls o1) (world o1) in
  calls o2 = log ++ [requestConfig this; requestConfig this] /\
  settled o2
  = fst (axios (requestConfig this) (snd (axios (requestConfig this) w))) /\
  world o2
  = snd (axios (requestConfig this) (snd (axios (requestConfig this) w))) /\
  builder o2 = this.
Proof.
  intros E o1 o2. subst o2 o1.
  rewrite (run_execute_valid _ axios this log w E). simpl.
  rewrite (run_execute_valid _ axios this _ _ E). simpl.
  rewrite <- app_assoc. repeat split.
Qed.

(** X10: a builder whose [execute] was rejected for its empty base URL is
    put right by [setBaseUrl]: the next [execute] hands the transport the new
    base URL followed by the resource, with everything else as configured
    before the failure. *)
Theorem execute_after_setBaseUrl (this : APIRequestBuilder) (u : string)
    (log : list AxiosRequestConfig.t) (w : World) :
  baseUrl this = "" ->
  u <> "" ->
  let o1 := run axios (execute this) log w in
  let o2 :=
    run axios (execute (setBaseUrl u (builder o1))) (calls o1) (world o1) in
  calls o1 = log /\
  calls o2
  = log ++
    [AxiosRequestConfig.mk (method this) (u +:+ resource this) (data this)
       (headers this) (queryParams this) (responseType this)] /\
  settled o2 = fst (axios (requestConfig (setBaseUrl u this)) w).
Proof.
  intros E Hu o1 o2. subst o2 o1.
  rewrite (run_execute_invalid _ axios this log w E). simpl.
  rewrite (run_execute_valid _ axios (setBaseUrl u this) log w Hu).
  repeat split.
Qed.

(** X11: slashes are not reconciled: a base URL that ends with a slash and a
    path that starts with one give a url with both, and such a builder always
    reaches the transport. *)
Theorem slashes_are_kept (b r : string) (this : APIRequestBuilder)
    (log : list AxiosRequestConfig.t) (w : World) :
  map AxiosRequestConfig.url
    (calls (run axios
              (execute (setRelativePath ("/" +:+ r)
                          (setBaseUrl (b +:+ "/") this)))
              log w))
  = map AxiosRequestConfig.url log ++ [b +:+ "//" +:+ r].
Proof.
  rewrite run_execute_valid by (simpl; apply append_nonempty_r).
  simpl. rewrite map_app. simpl. do 2 f_equal.
  now rewrite append_assoc.
Qed.

End Executions.

(** * The further properties at work on the concrete runtime *)

Section MoreInstances.
Local Existing Instance demo_runtime.

Lemma headers_hold_only_Authorization_witness :
  headers (chain [SetToken "x"; Get]
             (constructor "https://api.example.com" (Some "T")))
    !! "Authorization" = Some "Bearer x" /\
  ("Authorization" = "Authorization" /\
   exists x : string, "Bearer x" = "Bearer " +:+ x).
Proof.
  split; [reflexivity|].
  exact (headers_hold_only_Authorization [SetToken "x"; Get]
           "https://api.example.com" (Some "T") "Authorization" "Bearer x"
           eq_refl).
Defined.

Lemma calls_of_different_fields_commute_witness :
  name (SetBaseUrl "https://b.example.com") <> name (Post (JsString "payload"))
  /\
  call (SetBaseUrl "https://b.example.com")
    (call (Post (JsString "payload")) users_request)
  = call (Post (JsString "payload"))
      (call (SetBaseUrl "https://b.example.com") users_request).
Proof.
  split; [discriminate|].
  refine (proj1 (calls_of_different_fields_commute
                   (SetBaseUrl "https://b.example.com")
                   (Post (JsString "payload")) users_request
                   ltac:(discriminate) _)).
  intros [A _]. simpl in A. intuition discriminate.
Defined.

Lemma last_request_method_wins_witness :
  Forall (fun c => ~ In (name c) ["get"; "post"; "put"; "delete"; "patch"])
         [SetRelativePath "/users"; SetToken "x"] /\
  method (chain ([Post (JsString "payload")] ++
                 Get :: [SetRelativePath "/users"; SetToken "x"])
            (constructor "https://api.example.com" None))
  = "GET".
Proof.
  assert (F : Forall
                (fun c : Call =>
                   ~ In (name c) ["get"; "post"; "put"; "delete"; "patch"])
                [SetRelativePath "/users"; SetToken "x"]).
  { repeat constructor; simpl; intuition discriminate. }
  split; [exact F|].
  exact (proj1 (last_request_method_wins [Post (JsString "payload")]
                  [SetRelativePath "/users"; SetToken "x"]
                  (constructor "https://api.example.com" None) F)).
Defined.


Lemma constructor_token_as_setToken_witness :
  "T" <> "" /\
  requestConfig (chain [Get] (constructor "https://api.example.com" (Some "T")))
  = requestConfig
      (chain [Get] (setToken "T" (constructor "https://api.example.com" None))).
Proof.
  split; [discriminate|].
  exact (proj1 (constructor_token_as_setToken nat serve
                  "https://api.example.com" "T" [Get] [] 0
                  ltac:(discriminate))).
Defined.

Lemma fresh_builder_defaults_witness :
  "https://api.example.com" <> "" /\
  calls (run serve
           (execute (constructor "https://api.example.com" (Some "T"))) [] 0)
  = [AxiosRequestConfig.mk "GET" "https://api.example.com" JsUndefined
       {["Authorization" := "Bearer T"]} ∅ json].
Proof.
  split; [discriminate|].
  exact (fresh_builder_defaults nat serve "https://api.example.com" (Some "T")
           [] 0 ltac:(discriminate)).
Defined.

Lemma execute_twice_calls_twice_witness :
  baseUrl users_request <> "" /\
  calls (run serve
           (execute (builder (run serve (execute users_request) [] 0)))
           (calls (run serve (execute users_request) [] 0))
           (world (run serve (execute users_request) [] 0)))
  = [requestConfig users_request; requestConfig users_request].
Proof.
  split; [discriminate|].
  exact (proj1 (execute_twice_calls_twice nat serve users_request [] 0
                  ltac:(discriminate))).
Defined.

Lemma execute_after_setBaseUrl_witness :
  baseUrl (setRelativePath "/users" (constructor "" None)) = "" /\
  "https://api.example.com" <> "" /\
  calls (run serve
           (execute
              (setBaseUrl "https://api.example.com"
                 (builder
                    (run serve
                       (execute (setRelativePath "/users" (constructor "" None)))
                       [] 0))))
           (calls
              (run serve
                 (execute (setRelativePath "/users" (constructor "" None)))
                 [] 0))
           (world
              (run serve
                 (execute (setRelativePath "/users" (constructor "" None)))
                 [] 0)))
  = [AxiosRequestConfig.mk "GET" "https://api.example.com/users" JsUndefined
       ∅ ∅ json].
Proof.
  split; [reflexivity|]. split; [discriminate|].
  exact (proj1 (proj2 (execute_after_setBaseUrl nat serve
                         (setRelativePath "/users" (constructor "" None))
                         "https://api.example.com" [] 0 eq_refl
                         ltac:(discriminate)))).
Defined.

End MoreInstances.
